(** * identity-core: the validated [Identity] value object

    A shallow embedding of [src/identity.ts].  The file holds two
    revisions of the class, one after the other; they are embedded
    as [Rev1] (lines 1-127) and [Rev2] (lines 128-308).  Both share
    the [IIdentity] interface and the three alias checks of [create];
    they differ in how [create] fills [privateKeyHex] and [createdAt],
    and [Rev2] adds the [unitDNA] field and the [version] getter.

    Effects are threaded explicitly: [create] runs in a state monad over
    a [World] (the system clock read by [new Date()] and the number of
    [Identity] objects constructed), and every method of an instance runs
    in a state monad over the instance itself. *)

From Stdlib Require Import List ZArith NArith Bool Ascii String Lia Permutation.
From ExtLib Require Import Structures.Monad Structures.MonadState.
From ExtLib Require Import Data.Monads.StateMonad.
Import ListNotations.
Import MonadNotation.
Local Open Scope monad_scope.
Local Open Scope bool_scope.

(** ** JavaScript strings

    A JS string is a finite sequence of UTF-16 code units; [s.length]
    counts code units, and a regular expression without the [u] flag
    matches code unit by code unit. *)

Definition code_unit : Type := N.
Definition jsstring : Type := list code_unit.

Definition cu (a : ascii) : code_unit := N_of_ascii a.

(** A string literal of the source, as code units. *)
Definition lit (s : string) : jsstring := List.map cu (list_ascii_of_string s).

(** [s.length] *)
Definition js_length (s : jsstring) : N := N.of_nat (List.length s).

(** [ToBoolean] on a string: only the empty string is falsy. *)
Definition truthy (s : jsstring) : bool :=
  match s with
  | [] => false
  | _ :: _ => true
  end.

(** [v || d] where [v] is an optional string ([undefined] when omitted):
    [undefined] and the empty string are both falsy. *)
Definition or_string (v : option jsstring) (d : jsstring) : jsstring :=
  match v with
  | Some s => if truthy s then s else d
  | None => d
  end.

(** [v || d] where [v] is an optional object: every object is truthy,
    only [undefined] falls through. *)
Definition or_object {A : Type} (v : option A) (d : A) : A :=
  match v with
  | Some o => o
  | None => d
  end.

(** ** The regular expression [/^[a-zA-Z0-9_-]+$/]

    No flags: [^] and [$] anchor at the two ends of the input, the match
    is case sensitive, and the trailing [-] of the class is a literal. *)

Definition in_range (lo hi : ascii) (c : code_unit) : bool :=
  (cu lo <=? c)%N && (c <=? cu hi)%N.

Definition alias_class (c : code_unit) : bool :=
  in_range "a" "z" c || in_range "A" "Z" c || in_range "0" "9" c
  || (c =? cu "_")%N || (c =? cu "-")%N.

(** [[a-zA-Z0-9_-]*$]: class members up to the end of the input. *)
Fixpoint class_star_end (s : jsstring) : bool :=
  match s with
  | [] => true
  | c :: rest => alias_class c && class_star_end rest
  end.

(** [/^[a-zA-Z0-9_-]+$/.test(s)] *)
Definition alias_regex_test (s : jsstring) : bool :=
  match s with
  | [] => false
  | c :: rest => alias_class c && class_star_end rest
  end.

(** ** Dates

    A [Date] object holds one time value: [NaN] (an Invalid Date, here
    [None]) or an integral number of milliseconds since the epoch whose
    magnitude is at most 8.64e15. *)

Record Date : Type := mkDate { DateValue : option Z }.

Definition max_time : Z := 8640000000000000.

(** ECMAScript [TimeClip]. *)
Definition TimeClip (tv : option Z) : option Z :=
  match tv with
  | Some t => if (Z.abs t >? max_time)%Z then None else Some t
  | None => None
  end.

(** [new Date(d)] for a [Date] object [d]: the time value of [d],
    clipped. *)
Definition new_Date_from (d : Date) : Date := mkDate (TimeClip (DateValue d)).

(** The invariant of every [Date] object: its time value is a fixed
    point of [TimeClip]. *)
Definition Date_wf (d : Date) : Prop := TimeClip (DateValue d) = DateValue d.

(** [!isNaN(d.getTime())]: the date is a valid timestamp. *)
Definition Date_valid (d : Date) : bool :=
  match DateValue d with
  | Some _ => true
  | None => false
  end.

(** ** The world outside the instance

    [clock n] is the value the [n]-th reading of the system clock gives;
    [reads] counts the readings made so far and [constructed] the
    [Identity] objects built so far. *)

Record World : Type := mkWorld {
  clock : nat -> Z;
  reads : nat;
  constructed : nat
}.

(** [new Date()]: one reading of the clock. *)
Definition new_Date_now : state World Date :=
  w <- get ;;
  put (mkWorld (clock w) (S (reads w)) (constructed w)) ;;
  ret (mkDate (Some (clock w (reads w)))).

(** Every reading of the clock is a time value in range. *)
Definition clock_valid (w : World) : Prop :=
  forall n, (Z.abs (clock w n) <= max_time)%Z.

(** ** [Result] of [@synet/patterns] *)

Module Result.

(** Modelled from the spec: the validated-result abstraction of
    [@synet/patterns], which is imported and not part of the sources: a
    two-variant container, success carrying a value or failure carrying
    a message. *)
Inductive t (A : Type) : Type :=
| success (value : A)
| fail (message : jsstring).

Arguments success {A} value.
Arguments fail {A} message.

Definition isSuccess {A : Type} (r : t A) : bool :=
  match r with
  | success _ => true
  | fail _ => false
  end.

Definition isFailure {A : Type} (r : t A) : bool := negb (isSuccess r).

Definition errorMessage {A : Type} (r : t A) : option jsstring :=
  match r with
  | success _ => None
  | fail m => Some m
  end.

End Result.

(** ** The [IIdentity] interface and the argument of [create]

    [Credential] stands for [SynetVerifiableCredential<BaseCredentialSubject>]
    and [JSValue] for [unknown]; both are opaque here.  A
    [Record<string, unknown>] is kept as the list of its properties in
    insertion order. *)

Definition Metadata (JSValue : Type) : Type := list (jsstring * JSValue).

Module IIdentity.

Record t (Credential JSValue : Type) : Type := mk {
  alias : jsstring;
  did : jsstring;
  kid : jsstring;
  publicKeyHex : jsstring;
  privateKeyHex : option jsstring;
  provider : jsstring;
  credential : Credential;
  metadata : option (Metadata JSValue);
  createdAt : Date;
  version : option jsstring
}.

Arguments mk {Credential JSValue}.
Arguments alias {Credential JSValue}.
Arguments did {Credential JSValue}.
Arguments kid {Credential JSValue}.
Arguments publicKeyHex {Credential JSValue}.
Arguments privateKeyHex {Credential JSValue}.
Arguments provider {Credential JSValue}.
Arguments credential {Credential JSValue}.
Arguments metadata {Credential JSValue}.
Arguments createdAt {Credential JSValue}.
Arguments version {Credential JSValue}.

End IIdentity.

(** The object type of the parameter of [create]: as [IIdentity], with
    [createdAt] optional too. *)
Module CreateProps.

Record t (Credential JSValue : Type) : Type := mk {
  alias : jsstring;
  did : jsstring;
  kid : jsstring;
  publicKeyHex : jsstring;
  privateKeyHex : option jsstring;
  credential : Credential;
  provider : jsstring;
  metadata : option (Metadata JSValue);
  createdAt : option Date;
  version : option jsstring
}.

Arguments mk {Credential JSValue}.
Arguments alias {Credential JSValue}.
Arguments did {Credential JSValue}.
Arguments kid {Credential JSValue}.
Arguments publicKeyHex {Credential JSValue}.
Arguments privateKeyHex {Credential JSValue}.
Arguments credential {Credential JSValue}.
Arguments provider {Credential JSValue}.
Arguments metadata {Credential JSValue}.
Arguments createdAt {Credential JSValue}.
Arguments version {Credential JSValue}.

End CreateProps.

(** Passing a structural snapshot (an [IIdentity]) as the argument of
    [create]: every field goes over as it is, [createdAt] becomes a
    supplied value. *)
Definition props_of_snapshot {Credential JSValue : Type}
    (s : IIdentity.t Credential JSValue) : CreateProps.t Credential JSValue :=
  CreateProps.mk
    (IIdentity.alias s) (IIdentity.did s) (IIdentity.kid s)
    (IIdentity.publicKeyHex s) (IIdentity.privateKeyHex s)
    (IIdentity.credential s) (IIdentity.provider s)
    (IIdentity.metadata s) (Some (IIdentity.createdAt s))
    (IIdentity.version s).

(** The three failure messages of [create]. *)
Definition msg_empty : jsstring := lit "Vault Alias  empty".
Definition msg_chars : jsstring :=
  lit "Only alphanumeric characters, numbers, dashes, and underscores are allowed in vault ID".
Definition msg_length : jsstring :=
  lit "Vault Alias must be between 2 and 32 characters".

Definition default_version : jsstring := lit "1.0.0".

(** ** First revision of the class (lines 1-127) *)

Module Rev1.

Section Class.
Context {Credential JSValue : Type}.

(** [JSON.stringify] on the held record; the encoding of the opaque
    credential and metadata values is the built-in's business. *)
Variable JSON_stringify : IIdentity.t Credential JSValue -> jsstring.

(** [class Identity extends ValueObject<IIdentity>]: an instance holds
    the record it was constructed from as [this.props]. *)
Record Identity : Type := mkIdentity {
  props : IIdentity.t Credential JSValue
}.

(** [new Identity(props)] *)
Definition new_Identity (p : IIdentity.t Credential JSValue)
  : state World Identity :=
  w <- get ;;
  put (mkWorld (clock w) (reads w) (S (constructed w))) ;;
  ret (mkIdentity p).

Definition create (p : CreateProps.t Credential JSValue)
  : state World (Result.t Identity) :=
  if negb (truthy (CreateProps.alias p)) then
    ret (Result.fail msg_empty)
  else if negb (alias_regex_test (CreateProps.alias p)) then
    ret (Result.fail msg_chars)
  else if (js_length (CreateProps.alias p) <? 2)%N
          || (32 <? js_length (CreateProps.alias p))%N then
    ret (Result.fail msg_length)
  else
    (* props.createdAt || new Date(): a Date object is truthy *)
    createdAt <- match CreateProps.createdAt p with
                 | Some d => ret d
                 | None => new_Date_now
                 end ;;
    self <- new_Identity
      (IIdentity.mk
         (* alias *) (CreateProps.alias p)
         (* did *) (CreateProps.did p)
         (* kid *) (CreateProps.kid p)
         (* publicKeyHex *) (CreateProps.publicKeyHex p)
         (* privateKeyHex: props.publicKeyHex *)
         (Some (CreateProps.publicKeyHex p))
         (* provider *) (CreateProps.provider p)
         (* credential *) (CreateProps.credential p)
         (* metadata *) (Some (or_object (CreateProps.metadata p) []))
         (* createdAt *) createdAt
         (* version *)
         (Some (or_string (CreateProps.version p) default_version))) ;;
    ret (Result.success self).

Definition alias : state Identity jsstring :=
  self <- get ;; ret (IIdentity.alias (props self)).

Definition did : state Identity jsstring :=
  self <- get ;; ret (IIdentity.did (props self)).

Definition kid : state Identity jsstring :=
  self <- get ;; ret (IIdentity.kid (props self)).

Definition publicKeyHex : state Identity jsstring :=
  self <- get ;; ret (IIdentity.publicKeyHex (props self)).

Definition privateKeyHex : state Identity (option jsstring) :=
  self <- get ;; ret (IIdentity.privateKeyHex (props self)).

Definition provider : state Identity jsstring :=
  self <- get ;; ret (IIdentity.provider (props self)).

Definition credential : state Identity Credential :=
  self <- get ;; ret (IIdentity.credential (props self)).

Definition metadata : state Identity (Metadata JSValue) :=
  self <- get ;; ret (or_object (IIdentity.metadata (props self)) []).

Definition createdAt : state Identity Date :=
  self <- get ;; ret (IIdentity.createdAt (props self)).

Definition toString : state Identity jsstring :=
  self <- get ;; ret (JSON_stringify (props self)).

Definition toJSON : state Identity (IIdentity.t Credential JSValue) :=
  self <- get ;;
  ret (IIdentity.mk
         (IIdentity.alias (props self))
         (IIdentity.did (props self))
         (IIdentity.kid (props self))
         (IIdentity.publicKeyHex (props self))
         (IIdentity.privateKeyHex (props self))
         (IIdentity.provider (props self))
         (IIdentity.credential (props self))
         (Some (or_object (IIdentity.metadata (props self)) []))
         (IIdentity.createdAt (props self))
         (IIdentity.version (props self))).

(** The read-only surface of an instance, as calls a client can make
    in any order. *)
Inductive Method : Type :=
| m_alias | m_did | m_kid | m_publicKeyHex | m_privateKeyHex
| m_provider | m_credential | m_metadata | m_createdAt
| m_toString | m_toJSON.

Inductive Returned : Type :=
| r_string (s : jsstring)
| r_optional (s : option jsstring)
| r_credential (c : Credential)
| r_metadata (m : Metadata JSValue)
| r_date (d : Date)
| r_snapshot (j : IIdentity.t Credential JSValue).

Definition invoke (m : Method) : state Identity Returned :=
  match m with
  | m_alias => v <- alias ;; ret (r_string v)
  | m_did => v <- did ;; ret (r_string v)
  | m_kid => v <- kid ;; ret (r_string v)
  | m_publicKeyHex => v <- publicKeyHex ;; ret (r_string v)
  | m_privateKeyHex => v <- privateKeyHex ;; ret (r_optional v)
  | m_provider => v <- provider ;; ret (r_string v)
  | m_credential => v <- credential ;; ret (r_credential v)
  | m_metadata => v <- metadata ;; ret (r_metadata v)
  | m_createdAt => v <- createdAt ;; ret (r_date v)
  | m_toString => v <- toString ;; ret (r_string v)
  | m_toJSON => v <- toJSON ;; ret (r_snapshot v)
  end.

Fixpoint invoke_all (ms : list Method) : state Identity (list Returned) :=
  match ms with
  | [] => ret []
  | m :: rest =>
      v <- invoke m ;;
      vs <- invoke_all rest ;;
      ret (v :: vs)
  end.

End Class.

Arguments Identity : clear implicits.
Arguments Returned : clear implicits.

End Rev1.

(** ** Second revision of the class (lines 128-308) *)

Module UnitSchema.

#[local] Set Warnings "-register-all".

(** [interface UnitSchema]; [description] is not declared by the
    interface but the constructor's object literal sets it. *)
Inductive t : Type := mk {
  name : jsstring;
  description : option jsstring;
  version : jsstring;
  capabilities : option (list jsstring);
  children : option (list t)
}.

End UnitSchema.

Module Rev2.

Section Class.
Context {Credential JSValue : Type}.

Variable JSON_stringify : IIdentity.t Credential JSValue -> jsstring.

(** [interface IIdentityProps] repeats the fields of [IIdentity]. *)
Definition IIdentityProps : Type := IIdentity.t Credential JSValue.

(** [class Identity extends ValueObject<IIdentityProps>] with its
    private [unitDNA]. *)
Record Identity : Type := mkIdentity {
  props : IIdentityProps;
  unitDNA : UnitSchema.t
}.

(** [new Identity(props)] *)
Definition new_Identity (p : IIdentity.t Credential JSValue)
  : state World Identity :=
  w <- get ;;
  put (mkWorld (clock w) (reads w) (S (constructed w))) ;;
  ret (mkIdentity p
         (UnitSchema.mk
            (lit "Identity Unit")
            (Some (lit "I can create and manage decentralized identities. call .help() to see my capabilities."))
            (or_string (IIdentity.version p) default_version)
            (Some [lit "create"; lit "update"; lit "delete"])
            (Some []))).

Definition create (p : CreateProps.t Credential JSValue)
  : state World (Result.t Identity) :=
  if negb (truthy (CreateProps.alias p)) then
    ret (Result.fail msg_empty)
  else if negb (alias_regex_test (CreateProps.alias p)) then
    ret (Result.fail msg_chars)
  else if (js_length (CreateProps.alias p) <? 2)%N
          || (32 <? js_length (CreateProps.alias p))%N then
    ret (Result.fail msg_length)
  else
    (* props.createdAt ? new Date(props.createdAt) : new Date() *)
    createdAt <- match CreateProps.createdAt p with
                 | Some d => ret (new_Date_from d)
                 | None => new_Date_now
                 end ;;
    self <- new_Identity
      (IIdentity.mk
         (* alias *) (CreateProps.alias p)
         (* did *) (CreateProps.did p)
         (* kid *) (CreateProps.kid p)
         (* publicKeyHex *) (CreateProps.publicKeyHex p)
         (* privateKeyHex: props.privateKeyHex *)
         (CreateProps.privateKeyHex p)
         (* provider *) (CreateProps.provider p)
         (* credential *) (CreateProps.credential p)
         (* metadata *) (Some (or_object (CreateProps.metadata p) []))
         (* createdAt *) createdAt
         (* version *)
         (Some (or_string (CreateProps.version p) default_version))) ;;
    ret (Result.success self).

Definition whoami : state Identity jsstring :=
  self <- get ;; ret (UnitSchema.name (unitDNA self)).

Definition dna : state Identity UnitSchema.t :=
  self <- get ;; ret (unitDNA self).

Definition alias : state Identity jsstring :=
  self <- get ;; ret (IIdentity.alias (props self)).

Definition did : state Identity jsstring :=
  self <- get ;; ret (IIdentity.did (props self)).

Definition kid : state Identity jsstring :=
  self <- get ;; ret (IIdentity.kid (props self)).

Definition publicKeyHex : state Identity jsstring :=
  self <- get ;; ret (IIdentity.publicKeyHex (props self)).

Definition privateKeyHex : state Identity (option jsstring) :=
  self <- get ;; ret (IIdentity.privateKeyHex (props self)).

Definition provider : state Identity jsstring :=
  self <- get ;; ret (IIdentity.provider (props self)).

Definition credential : state Identity Credential :=
  self <- get ;; ret (IIdentity.credential (props self)).

Definition metadata : state Identity (Metadata JSValue) :=
  self <- get ;; ret (or_object (IIdentity.metadata (props self)) []).

Definition createdAt : state Identity Date :=
  self <- get ;; ret (IIdentity.createdAt (props self)).

Definition version : state Identity jsstring :=
  self <- get ;; ret (or_string (IIdentity.version (props self)) default_version).

Definition toString : state Identity jsstring :=
  self <- get ;; ret (JSON_stringify (props self)).

Definition toJSON : state Identity (IIdentity.t Credential JSValue) :=
  self <- get ;;
  ret (IIdentity.mk
         (IIdentity.alias (props self))
         (IIdentity.did (props self))
         (IIdentity.kid (props self))
         (IIdentity.publicKeyHex (props self))
         (IIdentity.privateKeyHex (props self))
         (IIdentity.provider (props self))
         (IIdentity.credential (props self))
         (Some (or_object (IIdentity.metadata (props self)) []))
         (IIdentity.createdAt (props self))
         (IIdentity.version (props self))).

(** The object is built from the getters, in the order of the literal.
    [this.metadata || {}] and [this.createdAt || new Date()] keep their
    left operand: an object, a [Date] included, is truthy, so the clock
    is not read. *)
Definition toDomain : state Identity (IIdentity.t Credential JSValue) :=
  a <- alias ;;
  d <- did ;;
  k <- kid ;;
  pub <- publicKeyHex ;;
  priv <- privateKeyHex ;;
  pr <- provider ;;
  c <- credential ;;
  m <- metadata ;;
  t <- createdAt ;;
  v <- version ;;
  ret (IIdentity.mk a d k pub priv pr c (Some m) t
         (Some (or_string (Some v) default_version))).

(** The read-only surface of an instance, as calls a client can make
    in any order. *)
Inductive Method : Type :=
| m_whoami | m_dna
| m_alias | m_did | m_kid | m_publicKeyHex | m_privateKeyHex
| m_provider | m_credential | m_metadata | m_createdAt | m_version
| m_toString | m_toJSON | m_toDomain.

Inductive Returned : Type :=
| r_string (s : jsstring)
| r_optional (s : option jsstring)
| r_credential (c : Credential)
| r_metadata (m : Metadata JSValue)
| r_date (d : Date)
| r_unit (u : UnitSchema.t)
| r_snapshot (j : IIdentity.t Credential JSValue).

Definition invoke (m : Method) : state Identity Returned :=
  match m with
  | m_whoami => v <- whoami ;; ret (r_string v)
  | m_dna => v <- dna ;; ret (r_unit v)
  | m_alias => v <- alias ;; ret (r_string v)
  | m_did => v <- did ;; ret (r_string v)
  | m_kid => v <- kid ;; ret (r_string v)
  | m_publicKeyHex => v <- publicKeyHex ;; ret (r_string v)
  | m_privateKeyHex => v <- privateKeyHex ;; ret (r_optional v)
  | m_provider => v <- provider ;; ret (r_string v)
  | m_credential => v <- credential ;; ret (r_credential v)
  | m_metadata => v <- metadata ;; ret (r_metadata v)
  | m_createdAt => v <- createdAt ;; ret (r_date v)
  | m_version => v <- version ;; ret (r_string v)
  | m_toString => v <- toString ;; ret (r_string v)
  | m_toJSON => v <- toJSON ;; ret (r_snapshot v)
  | m_toDomain => v <- toDomain ;; ret (r_snapshot v)
  end.

Fixpoint invoke_all (ms : list Method) : state Identity (list Returned) :=
  match ms with
  | [] => ret []
  | m :: rest =>
      v <- invoke m ;;
      vs <- invoke_all rest ;;
      ret (v :: vs)
  end.

End Class.

Arguments Identity : clear implicits.
Arguments Returned : clear implicits.

End Rev2.

(** ** The alias rules in the words of the specification *)

(** A character of [[A-Za-z0-9_-]], by its code. *)
Definition allowed_char (c : code_unit) : Prop :=
  (65 <= c <= 90 \/ 97 <= c <= 122 \/ 48 <= c <= 57 \/ c = 95 \/ c = 45)%N.

Definition has_disallowed_char (a : jsstring) : Prop :=
  exists c, In c a /\ ~ allowed_char c.

Definition length_out_of_bounds (a : jsstring) : Prop :=
  (List.length a < 2 \/ 32 < List.length a)%nat.

(** An alias the specification rejects: empty, or with a character
    outside the set, or shorter than 2 or longer than 32. *)
Definition alias_rejected (a : jsstring) : Prop :=
  a = [] \/ has_disallowed_char a \/ length_out_of_bounds a.

(** A valid alias: matches [^[A-Za-z0-9_-]+$] with length in [2, 32]. *)
Definition alias_accepted (a : jsstring) : Prop :=
  Forall allowed_char a /\ (2 <= List.length a <= 32)%nat.

(** The message of the first alias check that fails, if any. *)
Definition alias_failure (a : jsstring) : option jsstring :=
  if negb (truthy a) then Some msg_empty
  else if negb (alias_regex_test a) then Some msg_chars
  else if (js_length a <? 2)%N || (32 <? js_length a)%N then Some msg_length
  else None.

(** Defaulting as the specification words it: a value is replaced only
    when it is absent. *)
Definition spec_default {A : Type} (v : option A) (d : A) : A :=
  match v with
  | Some x => x
  | None => d
  end.

(** A well-formed argument: a supplied [createdAt] is a [Date] object. *)
Definition props_wf {Credential JSValue : Type}
    (p : CreateProps.t Credential JSValue) : Prop :=
  match CreateProps.createdAt p with
  | Some d => Date_wf d
  | None => True
  end.

(** Two snapshots agree on every field but [createdAt]. *)
Definition same_but_createdAt {Credential JSValue : Type}
    (s1 s2 : IIdentity.t Credential JSValue) : Prop :=
  IIdentity.alias s1 = IIdentity.alias s2 /\
  IIdentity.did s1 = IIdentity.did s2 /\
  IIdentity.kid s1 = IIdentity.kid s2 /\
  IIdentity.publicKeyHex s1 = IIdentity.publicKeyHex s2 /\
  IIdentity.privateKeyHex s1 = IIdentity.privateKeyHex s2 /\
  IIdentity.provider s1 = IIdentity.provider s2 /\
  IIdentity.credential s1 = IIdentity.credential s2 /\
  IIdentity.metadata s1 = IIdentity.metadata s2 /\
  IIdentity.version s1 = IIdentity.version s2.

(** ** Sample inputs *)

Definition world0 : World := mkWorld (fun _ => 1762128000000%Z) 0 0.

(** 2023-01-01T00:00:00Z *)
Definition new_year_2023 : Date := mkDate (Some 1672531200000%Z).

(** [new Date(NaN)], an Invalid Date. *)
Definition invalid_date : Date := mkDate None.

Definition sample (a : string) (priv : option jsstring)
    (created : option Date) (ver : option jsstring)
  : CreateProps.t unit unit :=
  CreateProps.mk (lit a) (lit "did:key:z6Mk") (lit "key-1") (lit "0xabc")
    priv tt (lit "did:key") None created ver.

Definition sample_with_private_key : CreateProps.t unit unit :=
  sample "user-001" (Some (lit "0xdef")) None None.

Definition sample_without_private_key : CreateProps.t unit unit :=
  sample "user-001" None None None.

(** A supplied, empty [version]. *)
Definition sample_empty_version : CreateProps.t unit unit :=
  sample "user-001" None None (Some []).

Definition sample_created_2023 : CreateProps.t unit unit :=
  sample "user-001" None (Some new_year_2023) (Some (lit "2.1.0")).

Definition sample_invalid_date : CreateProps.t unit unit :=
  sample "user-001" None (Some invalid_date) None.

Definition sample_one_char : CreateProps.t unit unit :=
  sample "u" None None None.

Definition sample_bad_chars : CreateProps.t unit unit :=
  sample "bad alias!" None None None.

(** One character, and that one outside the allowed set. *)
Definition sample_bang : CreateProps.t unit unit :=
  sample "!" None None None.

Definition sample_empty_alias : CreateProps.t unit unit :=
  sample EmptyString None None None.

Definition sample_33_chars : CreateProps.t unit unit :=
  sample "abcdefghijklmnopqrstuvwxyz0123456" None None None.

(** The invariants the specification lists for a held record: a valid
    alias, [metadata] present, [version] a concrete string. *)
Definition record_invariant {Credential JSValue : Type}
    (r : IIdentity.t Credential JSValue) : Prop :=
  alias_accepted (IIdentity.alias r) /\
  (exists m, IIdentity.metadata r = Some m) /\
  (exists v, IIdentity.version r = Some v /\ v <> []).

(** The same input as [sample_with_private_key] but for the alias. *)
Definition sample_other_fields : CreateProps.t unit unit :=
  CreateProps.mk (lit "bad alias!") (lit "did:web:example.org") (lit "key-2")
    (lit "0x123") (Some (lit "0x456")) tt (lit "did:web")
    (Some [(lit "k", tt)]) (Some new_year_2023) (Some (lit "3.0.0")).

Definition sample_two_chars : CreateProps.t unit unit :=
  sample "ab" None None None.

Definition sample_32_chars : CreateProps.t unit unit :=
  sample "abcdefghijklmnopqrstuvwxyz_-0123" None None None.

(** ** Record updates used to compare runs *)

(** The snapshot [s] with [k] as its [privateKeyHex]. *)
Definition with_privateKeyHex {Credential JSValue : Type}
    (k : option jsstring) (s : IIdentity.t Credential JSValue)
  : IIdentity.t Credential JSValue :=
  IIdentity.mk
    (IIdentity.alias s) (IIdentity.did s) (IIdentity.kid s)
    (IIdentity.publicKeyHex s) k (IIdentity.provider s)
    (IIdentity.credential s) (IIdentity.metadata s)
    (IIdentity.createdAt s) (IIdentity.version s).

(** The argument [p] of [create] with [k] as its [privateKeyHex]. *)
Definition props_with_privateKeyHex {Credential JSValue : Type}
    (k : option jsstring) (p : CreateProps.t Credential JSValue)
  : CreateProps.t Credential JSValue :=
  CreateProps.mk
    (CreateProps.alias p) (CreateProps.did p) (CreateProps.kid p)
    (CreateProps.publicKeyHex p) k (CreateProps.credential p)
    (CreateProps.provider p) (CreateProps.metadata p)
    (CreateProps.createdAt p) (CreateProps.version p).

(** The characters of ["user-001"] in another order. *)
Definition sample_permuted : CreateProps.t unit unit :=
  sample "100-resu" (Some (lit "0xdef")) (Some new_year_2023) None.

(** * Properties *)

(** ** The alias checks *)

Lemma alias_class_spec (c : code_unit) :
  alias_class c = true <-> allowed_char c.
Proof.
  unfold alias_class, in_range, allowed_char, cu. cbn [N_of_ascii].
  rewrite !orb_true_iff, !andb_true_iff, !N.leb_le, !N.eqb_eq.
  cbn. lia.
Qed.

Lemma class_star_end_spec (s : jsstring) :
  class_star_end s = true <-> Forall allowed_char s.
Proof.
  induction s as [|c s IH]; cbn.
  - split; [constructor | reflexivity].
  - rewrite andb_true_iff, alias_class_spec, IH. split.
    + intros [Hc Hs]. now constructor.
    + intros H. inversion H; subst. now split.
Qed.

Lemma alias_regex_test_spec (s : jsstring) :
  alias_regex_test s = true <-> s <> [] /\ Forall allowed_char s.
Proof.
  destruct s as [|c s].
  - cbn. split; [discriminate | intros [H _]; now elim H].
  - change (alias_regex_test (c :: s)) with (class_star_end (c :: s)).
    rewrite class_star_end_spec. split; [intros H; split; [discriminate | exact H] | tauto].
Qed.

Lemma allowed_char_dec (c : code_unit) : {allowed_char c} + {~ allowed_char c}.
Proof.
  destruct (alias_class c) eqn:E.
  - left. now apply alias_class_spec.
  - right. intros H. apply alias_class_spec in H. congruence.
Qed.

Lemma Forall_allowed_or_disallowed (a : jsstring) :
  Forall allowed_char a <-> ~ has_disallowed_char a.
Proof.
  unfold has_disallowed_char. split.
  - intros H [c [Hin Hc]]. rewrite Forall_forall in H. auto.
  - intros H. apply Forall_forall. intros c Hin.
    destruct (allowed_char_dec c) as [Hc|Hc]; [exact Hc|].
    exfalso. apply H. now exists c.
Qed.

Lemma length_check_spec (a : jsstring) :
  (js_length a <? 2)%N || (32 <? js_length a)%N = true
  <-> length_out_of_bounds a.
Proof.
  unfold js_length, length_out_of_bounds.
  rewrite orb_true_iff, !N.ltb_lt. lia.
Qed.

Lemma regex_test_false_disallowed (a : jsstring) :
  a <> [] -> alias_regex_test a = false -> has_disallowed_char a.
Proof.
  intros Hne Hr.
  assert (Hn : ~ Forall allowed_char a).
  { intros Hall.
    assert (alias_regex_test a = true) by now apply alias_regex_test_spec.
    congruence. }
  apply (neg_Forall_Exists_neg allowed_char_dec) in Hn.
  apply Exists_exists in Hn. exact Hn.
Qed.

(** The first failing check decides the message: the four cases of the
    validation prefix of [create], in the order of the source. *)
Lemma alias_failure_cases (a : jsstring) :
  (a = [] /\ alias_failure a = Some msg_empty) \/
  (a <> [] /\ has_disallowed_char a /\ alias_failure a = Some msg_chars) \/
  (a <> [] /\ ~ has_disallowed_char a /\ length_out_of_bounds a /\
   alias_failure a = Some msg_length) \/
  (alias_accepted a /\ alias_failure a = None).
Proof.
  unfold alias_failure.
  destruct a as [|c s]; [left; now split|]. right.
  cbn [truthy negb].
  destruct (alias_regex_test (c :: s)) eqn:Er; cbn [negb].
  - right. apply alias_regex_test_spec in Er. destruct Er as [Hne Hall].
    pose proof (proj1 (Forall_allowed_or_disallowed _) Hall) as Hnd.
    destruct ((js_length (c :: s) <? 2)%N || (32 <? js_length (c :: s))%N) eqn:El.
    + left. apply length_check_spec in El. now repeat split.
    + right. split; [|reflexivity]. split; [exact Hall|].
      assert (H : ~ length_out_of_bounds (c :: s)).
      { intros H. apply length_check_spec in H. congruence. }
      unfold length_out_of_bounds in H. lia.
  - left. split; [discriminate|]. split; [|reflexivity].
    apply regex_test_false_disallowed; [discriminate | exact Er].
Qed.

Lemma alias_accepted_not_rejected (a : jsstring) :
  alias_accepted a <-> ~ alias_rejected a.
Proof.
  unfold alias_accepted, alias_rejected, length_out_of_bounds.
  rewrite Forall_allowed_or_disallowed. split.
  - intros [Hc Hl] [He | [Hd | Ho]]; [subst; cbn in Hl; lia | auto | lia].
  - intros H. split; [intros Hd; apply H; auto | ].
    destruct (le_lt_dec 2 (List.length a)); [|exfalso; apply H; right; right; lia].
    destruct (le_lt_dec (List.length a) 32); [lia|exfalso; apply H; right; right; lia].
Qed.

Lemma alias_failure_None (a : jsstring) :
  alias_failure a = None <-> alias_accepted a.
Proof.
  destruct (alias_failure_cases a) as [[He E] | [[_ [Hd E]] | [[_ [_ [Ho E]]] | [Ha E]]]];
    rewrite E; (split; [try discriminate | try reflexivity]); try (intros _; exact Ha).
  - intros [_ Hl]. subst. cbn in Hl. lia.
  - intros [Hall _]. now apply Forall_allowed_or_disallowed in Hall.
  - intros [_ Hl]. unfold length_out_of_bounds in Ho. lia.
Qed.

Lemma alias_failure_Some (a : jsstring) :
  (exists m, alias_failure a = Some m) <-> alias_rejected a.
Proof.
  destruct (alias_failure_cases a) as [[He E] | [[_ [Hd E]] | [[_ [_ [Ho E]]] | [Ha E]]]];
    rewrite E; unfold alias_rejected.
  - split; eauto.
  - split; eauto.
  - split; eauto.
  - split; [intros [m Hm]; discriminate|].
    intros Hr. now apply alias_accepted_not_rejected in Ha.
Qed.

Lemma messages_distinct :
  msg_empty <> msg_chars /\ msg_empty <> msg_length /\ msg_chars <> msg_length.
Proof. repeat split; discriminate. Qed.

Lemma alias_failure_message (a : jsstring) (m : jsstring) :
  alias_failure a = Some m -> m = msg_empty \/ m = msg_chars \/ m = msg_length.
Proof.
  destruct (alias_failure_cases a) as [[_ E] | [[_ [_ E]] | [[_ [_ [_ E]]] | [_ E]]]];
    rewrite E; intros H; inversion H; auto.
Qed.

(** ** What [create] computes *)

Section Runs.
Context {Credential JSValue : Type}.
Implicit Types (p : CreateProps.t Credential JSValue) (w : World).

(** When a check fails, [create] returns its message and leaves the
    world as it was. *)
Lemma Rev1_create_fails p w m :
  alias_failure (CreateProps.alias p) = Some m ->
  runState (Rev1.create p) w = (Result.fail m, w).
Proof.
  unfold alias_failure, Rev1.create.
  destruct (negb (truthy (CreateProps.alias p)));
    [intros H; inversion H; reflexivity|].
  destruct (negb (alias_regex_test (CreateProps.alias p)));
    [intros H; inversion H; reflexivity|].
  destruct ((js_length (CreateProps.alias p) <? 2)%N
            || (32 <? js_length (CreateProps.alias p))%N);
    [intros H; inversion H; reflexivity | discriminate].
Qed.

Lemma Rev2_create_fails p w m :
  alias_failure (CreateProps.alias p) = Some m ->
  runState (Rev2.create p) w = (Result.fail m, w).
Proof.
  unfold alias_failure, Rev2.create.
  destruct (negb (truthy (CreateProps.alias p)));
    [intros H; inversion H; reflexivity|].
  destruct (negb (alias_regex_test (CreateProps.alias p)));
    [intros H; inversion H; reflexivity|].
  destruct ((js_length (CreateProps.alias p) <? 2)%N
            || (32 <? js_length (CreateProps.alias p))%N);
    [intros H; inversion H; reflexivity | discriminate].
Qed.

(** When no check fails, [create] returns the instance built from the
    input and the defaults; the clock is read once if [createdAt] was
    omitted, and one [Identity] is constructed. *)
Lemma Rev1_create_succeeds p w :
  alias_failure (CreateProps.alias p) = None ->
  runState (Rev1.create p) w =
  (Result.success
     (Rev1.mkIdentity
        (IIdentity.mk
           (CreateProps.alias p) (CreateProps.did p) (CreateProps.kid p)
           (CreateProps.publicKeyHex p) (Some (CreateProps.publicKeyHex p))
           (CreateProps.provider p) (CreateProps.credential p)
           (Some (or_object (CreateProps.metadata p) []))
           (match CreateProps.createdAt p with
            | Some d => d
            | None => mkDate (Some (clock w (reads w)))
            end)
           (Some (or_string (CreateProps.version p) default_version)))),
   mkWorld (clock w)
     (match CreateProps.createdAt p with
      | Some _ => reads w
      | None => S (reads w)
      end)
     (S (constructed w))).
Proof.
  unfold alias_failure, Rev1.create.
  destruct (negb (truthy (CreateProps.alias p))); [discriminate|].
  destruct (negb (alias_regex_test (CreateProps.alias p))); [discriminate|].
  destruct ((js_length (CreateProps.alias p) <? 2)%N
            || (32 <? js_length (CreateProps.alias p))%N); [discriminate|].
  intros _. destruct w as [c r n].
  destruct (CreateProps.createdAt p); reflexivity.
Qed.

Lemma Rev2_create_succeeds p w :
  alias_failure (CreateProps.alias p) = None ->
  runState (Rev2.create p) w =
  (Result.success
     (Rev2.mkIdentity
        (IIdentity.mk
           (CreateProps.alias p) (CreateProps.did p) (CreateProps.kid p)
           (CreateProps.publicKeyHex p) (CreateProps.privateKeyHex p)
           (CreateProps.provider p) (CreateProps.credential p)
           (Some (or_object (CreateProps.metadata p) []))
           (match CreateProps.createdAt p with
            | Some d => new_Date_from d
            | None => mkDate (Some (clock w (reads w)))
            end)
           (Some (or_string (CreateProps.version p) default_version)))
        (UnitSchema.mk
           (lit "Identity Unit")
           (Some (lit "I can create and manage decentralized identities. call .help() to see my capabilities."))
           (or_string (Some (or_string (CreateProps.version p) default_version))
              default_version)
           (Some [lit "create"; lit "update"; lit "delete"])
           (Some []))),
   mkWorld (clock w)
     (match CreateProps.createdAt p with
      | Some _ => reads w
      | None => S (reads w)
      end)
     (S (constructed w))).
Proof.
  unfold alias_failure, Rev2.create.
  destruct (negb (truthy (CreateProps.alias p))); [discriminate|].
  destruct (negb (alias_regex_test (CreateProps.alias p))); [discriminate|].
  destruct ((js_length (CreateProps.alias p) <? 2)%N
            || (32 <? js_length (CreateProps.alias p))%N); [discriminate|].
  intros _. destruct w as [c r n].
  destruct (CreateProps.createdAt p); reflexivity.
Qed.

End Runs.

(** ** Small facts about defaulting and dates *)

Lemma default_version_truthy : truthy default_version = true.
Proof. reflexivity. Qed.

Lemma or_string_truthy (v : option jsstring) (d : jsstring) :
  truthy d = true -> truthy (or_string v d) = true.
Proof.
  intros Hd. destruct v as [s|]; cbn; [|exact Hd].
  destruct (truthy s) eqn:E; [exact E | exact Hd].
Qed.

Lemma or_string_idem (v : option jsstring) (d : jsstring) :
  truthy d = true -> or_string (Some (or_string v d)) d = or_string v d.
Proof.
  intros Hd. change (or_string (Some (or_string v d)) d)
    with (if truthy (or_string v d) then or_string v d else d).
  now rewrite (or_string_truthy v d Hd).
Qed.

Lemma or_string_cases (v : option jsstring) (d : jsstring) :
  or_string v d = match v with
                  | Some (c :: s) => c :: s
                  | _ => d
                  end.
Proof. destruct v as [[|c s]|]; reflexivity. Qed.

Lemma TimeClip_idem (tv : option Z) : TimeClip (TimeClip tv) = TimeClip tv.
Proof.
  destruct tv as [t|]; cbn; [|reflexivity].
  destruct (Z.abs t >? max_time)%Z eqn:E; cbn; [reflexivity | now rewrite E].
Qed.

Lemma new_Date_from_wf (d : Date) : Date_wf (new_Date_from d).
Proof. unfold Date_wf, new_Date_from. cbn. apply TimeClip_idem. Qed.

Lemma new_Date_from_id (d : Date) : Date_wf d -> new_Date_from d = d.
Proof.
  unfold Date_wf, new_Date_from. destruct d as [tv]. cbn. now intros ->.
Qed.

Lemma clock_reading_wf (w : World) (n : nat) :
  clock_valid w -> Date_wf (mkDate (Some (clock w n))).
Proof.
  intros H. unfold Date_wf. cbn.
  destruct (Z.abs (clock w n) >? max_time)%Z eqn:E; [|reflexivity].
  specialize (H n). apply Z.gtb_lt in E. lia.
Qed.

(** From an equation [runState (create p) w = r], find which of the two
    outcomes of [create] it is and replace the run by its value. *)
Ltac run_create H :=
  match type of H with
  | runState (Rev1.create ?p) ?w = _ =>
      let Ea := fresh "Ea" in
      destruct (alias_failure (CreateProps.alias p)) eqn:Ea;
      [ rewrite (Rev1_create_fails p w _ Ea) in H
      | rewrite (Rev1_create_succeeds p w Ea) in H ]
  | runState (Rev2.create ?p) ?w = _ =>
      let Ea := fresh "Ea" in
      destruct (alias_failure (CreateProps.alias p)) eqn:Ea;
      [ rewrite (Rev2_create_fails p w _ Ea) in H
      | rewrite (Rev2_create_succeeds p w Ea) in H ]
  end.

Ltac run_success H :=
  run_create H; [discriminate | inversion H; subst; clear H].

(** ** The private key (C1) *)

Section PrivateKey.
Context {Credential JSValue : Type}.
Implicit Types (p : CreateProps.t Credential JSValue) (w : World).

(** The first revision stores the public key in the private-key field,
    whatever [privateKeyHex] the caller gave. *)
Lemma Rev1_privateKeyHex_is_publicKeyHex p w i w' :
  runState (Rev1.create p) w = (Result.success i, w') ->
  evalState Rev1.privateKeyHex i = Some (CreateProps.publicKeyHex p) /\
  IIdentity.privateKeyHex (evalState Rev1.toJSON i)
  = Some (CreateProps.publicKeyHex p).
Proof. intros H. run_success H. split; reflexivity. Qed.

(** The second revision stores [privateKeyHex] as given. *)
Lemma Rev2_privateKeyHex_as_given p w i w' :
  runState (Rev2.create p) w = (Result.success i, w') ->
  evalState Rev2.privateKeyHex i = CreateProps.privateKeyHex p /\
  IIdentity.privateKeyHex (evalState Rev2.toJSON i)
  = CreateProps.privateKeyHex p.
Proof. intros H. run_success H. split; reflexivity. Qed.

End PrivateKey.

(** C1: after a successful [create] the stored [privateKeyHex] should be
    the supplied one (absent when omitted), whatever [publicKeyHex] is.
    The first revision breaks this: given [privateKeyHex = "0xdef"] and
    [publicKeyHex = "0xabc"] the accessor and the snapshot both hold
    ["0xabc"], and with [privateKeyHex] omitted they hold ["0xabc"] too,
    where the second revision on the same inputs keeps ["0xdef"] and
    [undefined]. *)
Theorem C1_rev1_private_key_overwritten :
  (exists i w',
     runState (Rev1.create sample_with_private_key) world0
     = (Result.success i, w') /\
     CreateProps.privateKeyHex sample_with_private_key = Some (lit "0xdef") /\
     evalState Rev1.privateKeyHex i = Some (lit "0xabc") /\
     IIdentity.privateKeyHex (evalState Rev1.toJSON i) = Some (lit "0xabc")) /\
  (exists i w',
     runState (Rev1.create sample_without_private_key) world0
     = (Result.success i, w') /\
     CreateProps.privateKeyHex sample_without_private_key = None /\
     evalState Rev1.privateKeyHex i = Some (lit "0xabc") /\
     IIdentity.privateKeyHex (evalState Rev1.toJSON i) = Some (lit "0xabc")) /\
  (exists i w',
     runState (Rev2.create sample_with_private_key) world0
     = (Result.success i, w') /\
     evalState Rev2.privateKeyHex i = Some (lit "0xdef") /\
     IIdentity.privateKeyHex (evalState Rev2.toJSON i) = Some (lit "0xdef")) /\
  (exists i w',
     runState (Rev2.create sample_without_private_key) world0
     = (Result.success i, w') /\
     evalState Rev2.privateKeyHex i = None /\
     IIdentity.privateKeyHex (evalState Rev2.toJSON i) = None).
Proof.
  repeat split; eexists; eexists; repeat split; reflexivity.
Qed.

(** ** Accessors after a successful [create] (C2) *)

(** C2, as stated, fails on the code: given a valid alias and the empty
    string as [version] (a supplied value, not an absent one), [create]
    succeeds and the [version] accessor returns ["1.0.0"], not the
    supplied value. *)
Lemma C2_empty_version_is_replaced :
  alias_accepted (CreateProps.alias sample_empty_version) /\
  CreateProps.version sample_empty_version = Some [] /\
  exists i w',
    runState (Rev2.create sample_empty_version) world0
    = (Result.success i, w') /\
    evalState Rev2.version i = lit "1.0.0" /\
    evalState Rev2.version i
    <> spec_default (CreateProps.version sample_empty_version) default_version.
Proof.
  split; [|split; [reflexivity|]].
  - split; [|cbn; lia].
    apply class_star_end_spec. reflexivity.
  - eexists. eexists. split; [reflexivity|]. split; [reflexivity|].
    cbn. discriminate.
Qed.

Section Accessors.
Context {Credential JSValue : Type}.
Implicit Types (p : CreateProps.t Credential JSValue) (w : World).

(** C2 (amended): for every input with a valid alias, [create] returns
    success in both revisions, and on the instance [alias], [did], [kid],
    [publicKeyHex], [provider] and [credential] return the input values,
    [metadata] the input mapping or the empty one when omitted,
    [createdAt] the input timestamp or the clock reading when omitted,
    and the version is the input version when that is supplied and not
    empty, and ["1.0.0"] otherwise; in the second revision
    [privateKeyHex] returns the input value. *)
Theorem C2_accessors_return_defaulted_input p w :
  alias_accepted (CreateProps.alias p) ->
  props_wf p ->
  (exists i w',
     runState (Rev1.create p) w = (Result.success i, w') /\
     evalState Rev1.alias i = CreateProps.alias p /\
     evalState Rev1.did i = CreateProps.did p /\
     evalState Rev1.kid i = CreateProps.kid p /\
     evalState Rev1.publicKeyHex i = CreateProps.publicKeyHex p /\
     evalState Rev1.provider i = CreateProps.provider p /\
     evalState Rev1.credential i = CreateProps.credential p /\
     evalState Rev1.metadata i = spec_default (CreateProps.metadata p) [] /\
     evalState Rev1.createdAt i
     = spec_default (CreateProps.createdAt p)
         (mkDate (Some (clock w (reads w)))) /\
     IIdentity.version (evalState Rev1.toJSON i)
     = Some match CreateProps.version p with
            | Some (c :: s) => c :: s
            | _ => lit "1.0.0"
            end) /\
  (exists i w',
     runState (Rev2.create p) w = (Result.success i, w') /\
     evalState Rev2.alias i = CreateProps.alias p /\
     evalState Rev2.did i = CreateProps.did p /\
     evalState Rev2.kid i = CreateProps.kid p /\
     evalState Rev2.publicKeyHex i = CreateProps.publicKeyHex p /\
     evalState Rev2.privateKeyHex i = CreateProps.privateKeyHex p /\
     evalState Rev2.provider i = CreateProps.provider p /\
     evalState Rev2.credential i = CreateProps.credential p /\
     evalState Rev2.metadata i = spec_default (CreateProps.metadata p) [] /\
     evalState Rev2.createdAt i
     = spec_default (CreateProps.createdAt p)
         (mkDate (Some (clock w (reads w)))) /\
     evalState Rev2.version i
     = match CreateProps.version p with
       | Some (c :: s) => c :: s
       | _ => lit "1.0.0"
       end).
Proof.
  intros Ha Hwf. apply alias_failure_None in Ha. split.
  - eexists. eexists. split; [apply (Rev1_create_succeeds p w Ha)|].
    cbn. repeat match goal with |- _ /\ _ => split end; try reflexivity.
    f_equal. apply or_string_cases.
  - eexists. eexists. split; [apply (Rev2_create_succeeds p w Ha)|].
    cbn. repeat match goal with |- _ /\ _ => split end; try reflexivity.
    + unfold props_wf in Hwf. destruct (CreateProps.createdAt p) as [d|]; cbn.
      * now apply new_Date_from_id.
      * reflexivity.
    + change (or_string (Some (or_string (CreateProps.version p) default_version))
                default_version
              = match CreateProps.version p with
                | Some (c :: s) => c :: s
                | _ => default_version
                end).
      rewrite or_string_idem by reflexivity. apply or_string_cases.
Qed.

End Accessors.

Lemma C2_accessors_witness :
  exists i w',
    runState (Rev2.create sample_created_2023) world0 = (Result.success i, w') /\
    evalState Rev2.createdAt i = new_year_2023 /\
    evalState Rev2.version i = lit "2.1.0".
Proof.
  assert (Ha : alias_accepted (CreateProps.alias sample_created_2023)).
  { split; [apply class_star_end_spec; reflexivity | cbn; lia]. }
  assert (Hwf : props_wf sample_created_2023) by reflexivity.
  destruct (C2_accessors_return_defaulted_input sample_created_2023 world0 Ha Hwf)
    as [_ [i [w' H]]].
  exists i, w'. repeat split; apply H.
Defined.

(** ** Which aliases fail, and with which message (C3, C4) *)

Section Validation.
Context {Credential JSValue : Type}.
Implicit Types (p : CreateProps.t Credential JSValue) (w : World).

Lemma create_outcome p w :
  (exists m,
     alias_failure (CreateProps.alias p) = Some m /\
     alias_rejected (CreateProps.alias p) /\
     runState (Rev1.create p) w = (Result.fail m, w) /\
     runState (Rev2.create p) w = (Result.fail m, w)) \/
  (alias_failure (CreateProps.alias p) = None /\
   ~ alias_rejected (CreateProps.alias p) /\
   (exists i w', runState (Rev1.create p) w = (Result.success i, w')) /\
   (exists i w', runState (Rev2.create p) w = (Result.success i, w'))).
Proof.
  destruct (alias_failure (CreateProps.alias p)) as [m|] eqn:E.
  - left. exists m. split; [reflexivity|]. split.
    + apply alias_failure_Some. now exists m.
    + split; [now apply Rev1_create_fails | now apply Rev2_create_fails].
  - right. split; [reflexivity|]. split.
    + apply alias_accepted_not_rejected. now apply alias_failure_None.
    + split; eexists; eexists;
        [now apply Rev1_create_succeeds | now apply Rev2_create_succeeds].
Qed.

(** C3: [create] returns a failure exactly for the aliases that are
    empty, hold a character outside [[A-Za-z0-9_-]] or have a length
    below 2 or above 32, whatever the other fields are, and a success for
    every other alias: the alias checks are the only cause of failure. *)
Theorem C3_failure_iff_alias_rejected p w :
  (Result.isFailure (evalState (Rev1.create p) w) = true
   <-> alias_rejected (CreateProps.alias p)) /\
  (Result.isSuccess (evalState (Rev1.create p) w) = true
   <-> ~ alias_rejected (CreateProps.alias p)) /\
  (Result.isFailure (evalState (Rev2.create p) w) = true
   <-> alias_rejected (CreateProps.alias p)) /\
  (Result.isSuccess (evalState (Rev2.create p) w) = true
   <-> ~ alias_rejected (CreateProps.alias p)).
Proof.
  unfold evalState.
  destruct (create_outcome p w)
    as [[m [_ [Hr [H1 H2]]]] | [_ [Hn [[i1 [w1 H1]] [i2 [w2 H2]]]]]];
    rewrite H1, H2; cbn.
  - repeat split; intros H; try exact Hr; try reflexivity;
      try discriminate; contradiction.
  - repeat split; intros H; try exact Hn; try reflexivity;
      try discriminate; contradiction.
Qed.

(** C4: the checks run in the order empty alias, disallowed characters,
    length out of bounds, and the first that fails decides the message
    and ends the call with the world untouched; the three messages are
    pairwise different, so the message for the empty alias is neither
    the character-set message nor the length message. *)
Theorem C4_checks_in_order_with_distinct_messages p w :
  (CreateProps.alias p = [] ->
   runState (Rev1.create p) w = (Result.fail msg_empty, w) /\
   runState (Rev2.create p) w = (Result.fail msg_empty, w)) /\
  (CreateProps.alias p <> [] ->
   has_disallowed_char (CreateProps.alias p) ->
   runState (Rev1.create p) w = (Result.fail msg_chars, w) /\
   runState (Rev2.create p) w = (Result.fail msg_chars, w)) /\
  (CreateProps.alias p <> [] ->
   ~ has_disallowed_char (CreateProps.alias p) ->
   length_out_of_bounds (CreateProps.alias p) ->
   runState (Rev1.create p) w = (Result.fail msg_length, w) /\
   runState (Rev2.create p) w = (Result.fail msg_length, w)) /\
  msg_empty <> msg_chars /\ msg_empty <> msg_length /\ msg_chars <> msg_length.
Proof.
  pose proof (alias_failure_cases (CreateProps.alias p)) as Hc.
  split; [|split; [|split; [|exact messages_distinct]]].
  - intros He.
    destruct Hc as [[_ E] | [[Hne _] | [[Hne _] | [[_ Hl] _]]]];
      try contradiction.
    + split; [now apply Rev1_create_fails | now apply Rev2_create_fails].
    + rewrite He in Hl. cbn in Hl. lia.
  - intros Hne Hd.
    destruct Hc as [[He _] | [[_ [_ E]] | [[_ [Hnd _]] | [[Hall _] _]]]];
      try contradiction.
    + split; [now apply Rev1_create_fails | now apply Rev2_create_fails].
    + now apply Forall_allowed_or_disallowed in Hall.
  - intros Hne Hnd Ho.
    destruct Hc as [[He _] | [[_ [Hd _]] | [[_ [_ [_ E]]] | [[_ Hl] _]]]];
      try contradiction.
    + split; [now apply Rev1_create_fails | now apply Rev2_create_fails].
    + unfold length_out_of_bounds in Ho. lia.
Qed.

End Validation.

(** The scenarios of the specification, and the order of the checks on
    aliases that break more than one rule. *)
Example scenario_valid_alias :
  exists i w',
    runState (Rev2.create sample_without_private_key) world0
    = (Result.success i, w') /\
    evalState Rev2.alias i = lit "user-001" /\
    evalState Rev2.metadata i = [] /\
    evalState Rev2.version i = lit "1.0.0".
Proof. eexists. eexists. repeat split; reflexivity. Qed.

Example scenario_one_char :
  runState (Rev2.create sample_one_char) world0 = (Result.fail msg_length, world0).
Proof. reflexivity. Qed.

Example scenario_bad_chars :
  runState (Rev2.create sample_bad_chars) world0 = (Result.fail msg_chars, world0).
Proof. reflexivity. Qed.

Example scenario_empty_alias :
  runState (Rev2.create sample_empty_alias) world0 = (Result.fail msg_empty, world0).
Proof. reflexivity. Qed.

Example scenario_bang_chars_before_length :
  length_out_of_bounds (CreateProps.alias sample_bang) /\
  runState (Rev1.create sample_bang) world0 = (Result.fail msg_chars, world0) /\
  runState (Rev2.create sample_bang) world0 = (Result.fail msg_chars, world0).
Proof. split; [left; cbn; lia | split; reflexivity]. Qed.

Example scenario_33_chars :
  runState (Rev1.create sample_33_chars) world0 = (Result.fail msg_length, world0) /\
  runState (Rev2.create sample_33_chars) world0 = (Result.fail msg_length, world0).
Proof. split; reflexivity. Qed.

Example scenario_length_bounds_accepted :
  Result.isSuccess (evalState (Rev1.create sample_two_chars) world0) = true /\
  Result.isSuccess (evalState (Rev2.create sample_two_chars) world0) = true /\
  Result.isSuccess (evalState (Rev1.create sample_32_chars) world0) = true /\
  Result.isSuccess (evalState (Rev2.create sample_32_chars) world0) = true.
Proof. repeat split; reflexivity. Qed.

Lemma sample_bang_disallowed :
  CreateProps.alias sample_bang <> [] /\
  has_disallowed_char (CreateProps.alias sample_bang).
Proof.
  split; [discriminate|]. exists (cu "!"). split; [now left|].
  intros H. apply alias_class_spec in H. discriminate.
Qed.

Lemma C3_failure_witness :
  Result.isFailure (evalState (Rev2.create sample_bang) world0) = true.
Proof.
  apply (proj1 (proj2 (proj2 (C3_failure_iff_alias_rejected sample_bang world0)))).
  right. left. exact (proj2 sample_bang_disallowed).
Defined.

Lemma C4_order_witness :
  runState (Rev1.create sample_bang) world0 = (Result.fail msg_chars, world0) /\
  runState (Rev2.create sample_bang) world0 = (Result.fail msg_chars, world0).
Proof.
  exact (proj1 (proj2 (C4_checks_in_order_with_distinct_messages sample_bang world0))
           (proj1 sample_bang_disallowed) (proj2 sample_bang_disallowed)).
Defined.

(** ** Defaults (C5) *)

Section Defaults.
Context {Credential JSValue : Type}.
Implicit Types (p : CreateProps.t Credential JSValue) (w : World).

(** C5: after a successful [create], an omitted [metadata] reads as the
    empty mapping, an omitted [version] is stored as ["1.0.0"], an
    omitted [createdAt] is the value of the one clock reading the call
    makes, and a supplied [createdAt] is returned as the same timestamp,
    with no clock reading made. *)
Theorem C5_defaults_after_create p w :
  (forall i w',
     runState (Rev1.create p) w = (Result.success i, w') ->
     (CreateProps.metadata p = None -> evalState Rev1.metadata i = []) /\
     (CreateProps.version p = None ->
      IIdentity.version (Rev1.props i) = Some (lit "1.0.0")) /\
     (CreateProps.createdAt p = None ->
      evalState Rev1.createdAt i = mkDate (Some (clock w (reads w))) /\
      reads w' = S (reads w)) /\
     (forall d, CreateProps.createdAt p = Some d -> Date_wf d ->
      evalState Rev1.createdAt i = d /\ reads w' = reads w)) /\
  (forall i w',
     runState (Rev2.create p) w = (Result.success i, w') ->
     (CreateProps.metadata p = None -> evalState Rev2.metadata i = []) /\
     (CreateProps.version p = None ->
      IIdentity.version (Rev2.props i) = Some (lit "1.0.0") /\
      evalState Rev2.version i = lit "1.0.0") /\
     (CreateProps.createdAt p = None ->
      evalState Rev2.createdAt i = mkDate (Some (clock w (reads w))) /\
      reads w' = S (reads w)) /\
     (forall d, CreateProps.createdAt p = Some d -> Date_wf d ->
      evalState Rev2.createdAt i = d /\ reads w' = reads w)).
Proof.
  split; intros i w' H; run_success H; cbn;
    repeat match goal with |- _ /\ _ => split end.
  - now intros ->.
  - now intros ->.
  - intros ->. split; reflexivity.
  - intros d -> _. split; reflexivity.
  - now intros ->.
  - intros ->. split; reflexivity.
  - intros ->. split; reflexivity.
  - intros d -> Hd. split; [now apply new_Date_from_id | reflexivity].
Qed.

End Defaults.

Lemma C5_defaults_witness :
  (exists i w',
     runState (Rev2.create sample_without_private_key) world0
     = (Result.success i, w') /\
     evalState Rev2.metadata i = [] /\
     evalState Rev2.version i = lit "1.0.0" /\
     evalState Rev2.createdAt i = mkDate (Some 1762128000000%Z) /\
     reads w' = 1%nat) /\
  (exists i w',
     runState (Rev2.create sample_created_2023) world0
     = (Result.success i, w') /\
     evalState Rev2.createdAt i = new_year_2023 /\
     reads w' = 0%nat).
Proof.
  split.
  - eexists. eexists. split; [reflexivity|].
    destruct (proj2 (C5_defaults_after_create sample_without_private_key world0)
                _ _ eq_refl) as [Hm [Hv [Hc _]]].
    split; [exact (Hm eq_refl)|]. split; [exact (proj2 (Hv eq_refl))|].
    exact (Hc eq_refl).
  - eexists. eexists. split; [reflexivity|].
    destruct (proj2 (C5_defaults_after_create sample_created_2023 world0)
                _ _ eq_refl) as [_ [_ [_ Hd]]].
    exact (Hd new_year_2023 eq_refl eq_refl).
Defined.

(** ** Round trip through the snapshot (C6) *)

Section RoundTrip.
Context {Credential JSValue : Type}.
Implicit Types (p : CreateProps.t Credential JSValue) (w : World).

(** C6: for an instance a successful [create] produced, [create] on the
    fields of its snapshot succeeds again, in any world, and the new
    instance has the same snapshot.  In the first revision the snapshots
    are equal outright.  In the second, which copies the timestamp, they
    agree on every field but [createdAt], whose new value is the copy of
    the old one; the copy is the same timestamp, and the snapshots are
    equal outright, whenever the timestamp was supplied or read from a
    clock whose value is in range. *)
Theorem C6_snapshot_round_trip p w w2 :
  (forall i w1,
     runState (Rev1.create p) w = (Result.success i, w1) ->
     exists i' w3,
       runState (Rev1.create (props_of_snapshot (evalState Rev1.toJSON i))) w2
       = (Result.success i', w3) /\
       evalState Rev1.toJSON i' = evalState Rev1.toJSON i) /\
  (forall i w1,
     runState (Rev2.create p) w = (Result.success i, w1) ->
     exists i' w3,
       runState (Rev2.create (props_of_snapshot (evalState Rev2.toJSON i))) w2
       = (Result.success i', w3) /\
       same_but_createdAt (evalState Rev2.toJSON i') (evalState Rev2.toJSON i) /\
       IIdentity.createdAt (evalState Rev2.toJSON i')
       = new_Date_from (IIdentity.createdAt (evalState Rev2.toJSON i)) /\
       ((CreateProps.createdAt p = None -> clock_valid w) ->
        evalState Rev2.toJSON i' = evalState Rev2.toJSON i)).
Proof.
  split; intros i w1 H; run_success H.
  - eexists. eexists. split.
    + apply Rev1_create_succeeds. exact Ea.
    + cbn -[or_string]. rewrite or_string_idem by reflexivity. reflexivity.
  - eexists. eexists. split.
    + apply Rev2_create_succeeds. exact Ea.
    + cbn -[or_string]. rewrite or_string_idem by reflexivity.
      split; [repeat split|]. split; [reflexivity|].
      intros Hclk. f_equal.
      destruct (CreateProps.createdAt p) as [d|].
      * apply new_Date_from_id, new_Date_from_wf.
      * apply new_Date_from_id, clock_reading_wf. now apply Hclk.
Qed.

End RoundTrip.

Lemma world0_clock_valid : clock_valid world0.
Proof. intros n. cbn. unfold max_time. lia. Qed.

Lemma C6_round_trip_witness :
  exists i w1 i' w3,
    runState (Rev2.create sample_with_private_key) world0
    = (Result.success i, w1) /\
    runState (Rev2.create (props_of_snapshot (evalState Rev2.toJSON i))) w1
    = (Result.success i', w3) /\
    evalState Rev2.toJSON i' = evalState Rev2.toJSON i.
Proof.
  eexists. eexists.
  destruct (proj2 (C6_snapshot_round_trip sample_with_private_key world0
                     (mkWorld (clock world0) 1 1)) _ _ eq_refl)
    as [i' [w3 [Hrun [_ [_ Heq]]]]].
  exists i', w3. split; [reflexivity|]. split; [exact Hrun|].
  apply Heq. intros _. exact world0_clock_valid.
Defined.

(** ** A malformed [createdAt] (C7) *)

(** C7, as stated, fails on the code: given a valid alias and an Invalid
    Date as [createdAt], both revisions return a success whose instance
    holds the invalid timestamp. *)
Lemma C7_invalid_date_is_accepted :
  CreateProps.createdAt sample_invalid_date = Some invalid_date /\
  Date_valid invalid_date = false /\
  (exists i w',
     runState (Rev1.create sample_invalid_date) world0
     = (Result.success i, w') /\
     Date_valid (evalState Rev1.createdAt i) = false) /\
  (exists i w',
     runState (Rev2.create sample_invalid_date) world0
     = (Result.success i, w') /\
     Date_valid (evalState Rev2.createdAt i) = false).
Proof.
  split; [reflexivity|]. split; [reflexivity|].
  split; eexists; eexists; split; reflexivity.
Qed.

Section MalformedDate.
Context {Credential JSValue : Type}.
Implicit Types (p : CreateProps.t Credential JSValue) (w : World).

(** C7 (amended): [create] does not check [createdAt]; with a valid
    alias it returns a success whatever [createdAt] is, and the
    [createdAt] of the instance is a valid timestamp exactly when the
    supplied one was, and always when it was omitted. *)
Theorem C7_createdAt_valid_as_supplied p w :
  alias_accepted (CreateProps.alias p) ->
  props_wf p ->
  (exists i w',
     runState (Rev1.create p) w = (Result.success i, w') /\
     Date_valid (evalState Rev1.createdAt i)
     = match CreateProps.createdAt p with
       | Some d => Date_valid d
       | None => true
       end) /\
  (exists i w',
     runState (Rev2.create p) w = (Result.success i, w') /\
     Date_valid (evalState Rev2.createdAt i)
     = match CreateProps.createdAt p with
       | Some d => Date_valid d
       | None => true
       end).
Proof.
  intros Ha Hwf. apply alias_failure_None in Ha. split.
  - eexists. eexists. split; [apply (Rev1_create_succeeds p w Ha)|].
    cbn. destruct (CreateProps.createdAt p); reflexivity.
  - eexists. eexists. split; [apply (Rev2_create_succeeds p w Ha)|].
    cbn. unfold props_wf in Hwf.
    destruct (CreateProps.createdAt p) as [d|]; [|reflexivity].
    now rewrite (new_Date_from_id d Hwf).
Qed.

End MalformedDate.

Lemma sample_alias_accepted : alias_accepted (lit "user-001").
Proof. split; [apply class_star_end_spec; reflexivity | cbn; lia]. Qed.

Lemma C7_createdAt_witness :
  (exists i w',
     runState (Rev2.create sample_invalid_date) world0 = (Result.success i, w') /\
     Date_valid (evalState Rev2.createdAt i) = false) /\
  (exists i w',
     runState (Rev2.create sample_created_2023) world0 = (Result.success i, w') /\
     Date_valid (evalState Rev2.createdAt i) = true).
Proof.
  split.
  - exact (proj2 (C7_createdAt_valid_as_supplied sample_invalid_date world0
                    sample_alias_accepted eq_refl)).
  - exact (proj2 (C7_createdAt_valid_as_supplied sample_created_2023 world0
                    sample_alias_accepted eq_refl)).
Defined.

(** ** [create] always returns a [Result] (C8) *)

Section Totality.
Context {Credential JSValue : Type}.
Implicit Types (p : CreateProps.t Credential JSValue) (w : World).

Lemma failure_message_readable (m : jsstring) :
  m = msg_empty \/ m = msg_chars \/ m = msg_length -> m <> [].
Proof. intros [-> | [-> | ->]]; discriminate. Qed.

(** C8: on every input [create] returns, and what it returns is either
    a success wrapping an instance whose record satisfies the
    invariants, exactly one [Identity] having been constructed, or a
    failure carrying one of the three (non-empty) messages, with the
    world as it was: nothing constructed, no clock reading made. *)
Theorem C8_create_returns_success_or_failure p w :
  ((exists i w',
      runState (Rev1.create p) w = (Result.success i, w') /\
      constructed w' = S (constructed w) /\
      record_invariant (Rev1.props i)) \/
   (exists m,
      runState (Rev1.create p) w = (Result.fail m, w) /\
      (m = msg_empty \/ m = msg_chars \/ m = msg_length) /\ m <> [])) /\
  ((exists i w',
      runState (Rev2.create p) w = (Result.success i, w') /\
      constructed w' = S (constructed w) /\
      record_invariant (Rev2.props i)) \/
   (exists m,
      runState (Rev2.create p) w = (Result.fail m, w) /\
      (m = msg_empty \/ m = msg_chars \/ m = msg_length) /\ m <> [])).
Proof.
  destruct (alias_failure (CreateProps.alias p)) as [m|] eqn:E.
  - pose proof (alias_failure_message _ _ E) as Hm.
    pose proof (failure_message_readable m Hm) as Hr.
    split; right; exists m.
    + split; [now apply Rev1_create_fails | now split].
    + split; [now apply Rev2_create_fails | now split].
  - assert (Hv : exists v,
               Some (or_string (CreateProps.version p) default_version) = Some v
               /\ v <> []).
    { eexists. split; [reflexivity|].
      pose proof (or_string_truthy (CreateProps.version p) default_version
                    default_version_truthy) as Ht.
      intros Hnil. rewrite Hnil in Ht. discriminate. }
    pose proof (proj1 (alias_failure_None _) E) as Ha.
    split; left; eexists; eexists.
    + split; [now apply Rev1_create_succeeds|]. split; [reflexivity|].
      split; [exact Ha|]. split; [eexists; reflexivity | exact Hv].
    + split; [now apply Rev2_create_succeeds|]. split; [reflexivity|].
      split; [exact Ha|]. split; [eexists; reflexivity | exact Hv].
Qed.

End Totality.

(** ** Reading an instance does not change it (C9) *)

Section Frame.
Context {Credential JSValue : Type}.
Variable JSON_stringify : IIdentity.t Credential JSValue -> jsstring.

Lemma Rev1_invoke_frame (m : Rev1.Method) (i : Rev1.Identity Credential JSValue) :
  execState (Rev1.invoke JSON_stringify m) i = i.
Proof. destruct m; reflexivity. Qed.

Lemma Rev2_invoke_frame (m : Rev2.Method) (i : Rev2.Identity Credential JSValue) :
  execState (Rev2.invoke JSON_stringify m) i = i.
Proof. destruct m; reflexivity. Qed.

Lemma Rev1_invoke_all_frame (ms : list Rev1.Method)
    (i : Rev1.Identity Credential JSValue) :
  execState (Rev1.invoke_all JSON_stringify ms) i = i.
Proof.
  induction ms as [|m ms IH]; [reflexivity|].
  unfold execState in *. cbn [Rev1.invoke_all].
  cbn [bind Monad_state runState].
  pose proof (Rev1_invoke_frame m i) as Hm. unfold execState in Hm.
  destruct (runState (Rev1.invoke JSON_stringify m) i) as [v s]. cbn in Hm. subst s.
  destruct (runState (Rev1.invoke_all JSON_stringify ms) i) as [vs s].
  cbn in IH. subst s. reflexivity.
Qed.

Lemma Rev2_invoke_all_frame (ms : list Rev2.Method)
    (i : Rev2.Identity Credential JSValue) :
  execState (Rev2.invoke_all JSON_stringify ms) i = i.
Proof.
  induction ms as [|m ms IH]; [reflexivity|].
  unfold execState in *. cbn [Rev2.invoke_all].
  cbn [bind Monad_state runState].
  pose proof (Rev2_invoke_frame m i) as Hm. unfold execState in Hm.
  destruct (runState (Rev2.invoke JSON_stringify m) i) as [v s]. cbn in Hm. subst s.
  destruct (runState (Rev2.invoke_all JSON_stringify ms) i) as [vs s].
  cbn in IH. subst s. reflexivity.
Qed.

(** C9: whatever sequence of accessor, [toString] and [toJSON] calls is
    made on an instance, the instance (its held record, and in the
    second revision its unit description) is the same afterwards; a
    snapshot taken after the calls equals one taken before, and two
    successive [toJSON] calls return equal snapshots. *)
Theorem C9_reads_leave_instance_unchanged
    (i1 : Rev1.Identity Credential JSValue) (ms1 : list Rev1.Method)
    (i2 : Rev2.Identity Credential JSValue) (ms2 : list Rev2.Method) :
  (execState (Rev1.invoke_all JSON_stringify ms1) i1 = i1 /\
   evalState (Rev1.invoke_all JSON_stringify ms1 ;; Rev1.toJSON) i1
   = evalState Rev1.toJSON i1 /\
   evalState (a <- Rev1.toJSON ;; b <- Rev1.toJSON ;; ret (a, b)) i1
   = (evalState Rev1.toJSON i1, evalState Rev1.toJSON i1)) /\
  (execState (Rev2.invoke_all JSON_stringify ms2) i2 = i2 /\
   evalState (Rev2.invoke_all JSON_stringify ms2 ;; Rev2.toJSON) i2
   = evalState Rev2.toJSON i2 /\
   evalState (a <- Rev2.toJSON ;; b <- Rev2.toJSON ;; ret (a, b)) i2
   = (evalState Rev2.toJSON i2, evalState Rev2.toJSON i2)).
Proof.
  split.
  - split; [apply Rev1_invoke_all_frame|]. split; [|reflexivity].
    pose proof (Rev1_invoke_all_frame ms1 i1) as H.
    unfold evalState, execState in *. cbn [bind Monad_state runState].
    destruct (runState (Rev1.invoke_all JSON_stringify ms1) i1) as [vs s].
    cbn in H. now subst s.
  - split; [apply Rev2_invoke_all_frame|]. split; [|reflexivity].
    pose proof (Rev2_invoke_all_frame ms2 i2) as H.
    unfold evalState, execState in *. cbn [bind Monad_state runState].
    destruct (runState (Rev2.invoke_all JSON_stringify ms2) i2) as [vs s].
    cbn in H. now subst s.
Qed.

End Frame.

(** ** The outcome depends on the alias only (C10) *)

Section Noninterference.
Context {Credential JSValue : Type}.
Implicit Types (p : CreateProps.t Credential JSValue) (w : World).

(** C10: two inputs with the same alias, however the other fields and
    the worlds differ, both succeed or both fail, and when they fail the
    two messages are the same. *)
Theorem C10_outcome_depends_on_alias_only p1 p2 w1 w2 :
  CreateProps.alias p1 = CreateProps.alias p2 ->
  (Result.isSuccess (evalState (Rev1.create p1) w1)
   = Result.isSuccess (evalState (Rev1.create p2) w2) /\
   Result.errorMessage (evalState (Rev1.create p1) w1)
   = Result.errorMessage (evalState (Rev1.create p2) w2)) /\
  (Result.isSuccess (evalState (Rev2.create p1) w1)
   = Result.isSuccess (evalState (Rev2.create p2) w2) /\
   Result.errorMessage (evalState (Rev2.create p1) w1)
   = Result.errorMessage (evalState (Rev2.create p2) w2)).
Proof.
  intros Halias. unfold evalState.
  destruct (alias_failure (CreateProps.alias p1)) as [m|] eqn:E1.
  - assert (E2 : alias_failure (CreateProps.alias p2) = Some m) by congruence.
    rewrite (Rev1_create_fails p1 w1 m E1), (Rev1_create_fails p2 w2 m E2).
    rewrite (Rev2_create_fails p1 w1 m E1), (Rev2_create_fails p2 w2 m E2).
    repeat split.
  - assert (E2 : alias_failure (CreateProps.alias p2) = None) by congruence.
    rewrite (Rev1_create_succeeds p1 w1 E1), (Rev1_create_succeeds p2 w2 E2).
    rewrite (Rev2_create_succeeds p1 w1 E1), (Rev2_create_succeeds p2 w2 E2).
    repeat split.
Qed.

End Noninterference.

Lemma C10_same_alias_witness :
  Result.errorMessage (evalState (Rev2.create sample_bad_chars) world0)
  = Result.errorMessage
      (evalState (Rev2.create sample_other_fields) (mkWorld (fun _ => 0%Z) 7 3)).
Proof.
  exact (proj2 (proj2 (C10_outcome_depends_on_alias_only
                         sample_bad_chars sample_other_fields
                         world0 (mkWorld (fun _ => 0%Z) 7 3) eq_refl))).
Defined.

(** * Further properties of the two revisions *)

(** ** What each revision does with the private key *)

Section PrivateKeyFlow.
Context {Credential JSValue : Type}.
Implicit Types (p : CreateProps.t Credential JSValue) (w : World).

(** X1: in the second revision, whenever the alias is valid [create]
    succeeds and the instance holds the supplied [privateKeyHex], absent
    when it was omitted, in the accessor and in the snapshot alike;
    replacing the private key of the input changes nothing else of the
    snapshot. *)
Theorem X1_rev2_keeps_private_key p w :
  alias_accepted (CreateProps.alias p) ->
  exists i w',
    runState (Rev2.create p) w = (Result.success i, w') /\
    evalState Rev2.privateKeyHex i = CreateProps.privateKeyHex p /\
    IIdentity.privateKeyHex (evalState Rev2.toJSON i)
    = CreateProps.privateKeyHex p /\
    forall k, exists j,
      runState (Rev2.create (props_with_privateKeyHex k p)) w
      = (Result.success j, w') /\
      evalState Rev2.toJSON j = with_privateKeyHex k (evalState Rev2.toJSON i).
Proof.
  intros Ha. apply alias_failure_None in Ha.
  eexists. eexists. split; [apply (Rev2_create_succeeds p w Ha)|].
  split; [reflexivity|]. split; [reflexivity|].
  intros k. eexists. split.
  - rewrite (Rev2_create_succeeds (props_with_privateKeyHex k p) w Ha).
    reflexivity.
  - reflexivity.
Qed.

(** X2: the first revision never looks at the supplied [privateKeyHex]:
    two inputs that differ in that field only give the same result in the
    same world, and what a success holds as private key is the public
    key. *)
Theorem X2_rev1_ignores_private_key p w (k : option jsstring) :
  runState (Rev1.create (props_with_privateKeyHex k p)) w
  = runState (Rev1.create p) w /\
  forall i w',
    runState (Rev1.create p) w = (Result.success i, w') ->
    evalState Rev1.privateKeyHex i = Some (evalState Rev1.publicKeyHex i).
Proof.
  split.
  - destruct (alias_failure (CreateProps.alias p)) as [m|] eqn:E.
    + rewrite (Rev1_create_fails p w m E).
      now rewrite (Rev1_create_fails (props_with_privateKeyHex k p) w m E).
    + rewrite (Rev1_create_succeeds p w E).
      now rewrite (Rev1_create_succeeds (props_with_privateKeyHex k p) w E).
  - intros i w' H. run_success H. reflexivity.
Qed.

(** X3: on a well-formed input the two revisions agree: the same
    failure message if any, the same world afterwards, and on success
    the same snapshot but for [privateKeyHex], where the first revision
    holds the public key. *)
Theorem X3_revisions_agree_but_for_private_key p w :
  props_wf p ->
  Result.errorMessage (evalState (Rev1.create p) w)
  = Result.errorMessage (evalState (Rev2.create p) w) /\
  execState (Rev1.create p) w = execState (Rev2.create p) w /\
  forall i1 w1 i2 w2,
    runState (Rev1.create p) w = (Result.success i1, w1) ->
    runState (Rev2.create p) w = (Result.success i2, w2) ->
    evalState Rev1.toJSON i1
    = with_privateKeyHex (Some (CreateProps.publicKeyHex p))
        (evalState Rev2.toJSON i2).
Proof.
  intros Hwf. unfold evalState, execState.
  destruct (alias_failure (CreateProps.alias p)) as [m|] eqn:E.
  - rewrite (Rev1_create_fails p w m E), (Rev2_create_fails p w m E).
    split; [reflexivity|]. split; [reflexivity|].
    intros i1 w1 i2 w2 H. discriminate.
  - rewrite (Rev1_create_succeeds p w E), (Rev2_create_succeeds p w E).
    split; [reflexivity|]. split; [reflexivity|].
    intros i1 w1 i2 w2 H1 H2. inversion H1; subst. inversion H2; subst.
    cbn -[or_string]. unfold with_privateKeyHex. cbn -[or_string].
    unfold props_wf in Hwf.
    destruct (CreateProps.createdAt p) as [d|]; [|reflexivity].
    now rewrite (new_Date_from_id d Hwf).
Qed.

End PrivateKeyFlow.

Lemma X1_rev2_keeps_private_key_witness :
  exists i w',
    runState (Rev2.create sample_with_private_key) world0
    = (Result.success i, w') /\
    evalState Rev2.privateKeyHex i = Some (lit "0xdef").
Proof.
  destruct (X1_rev2_keeps_private_key sample_with_private_key world0
              sample_alias_accepted) as [i [w' [Hrun [Hk _]]]].
  exists i, w'. split; [exact Hrun | exact Hk].
Defined.

Lemma X3_revisions_agree_witness :
  Result.errorMessage (evalState (Rev1.create sample_created_2023) world0)
  = Result.errorMessage (evalState (Rev2.create sample_created_2023) world0) /\
  execState (Rev1.create sample_created_2023) world0
  = execState (Rev2.create sample_created_2023) world0.
Proof.
  destruct (X3_revisions_agree_but_for_private_key sample_created_2023 world0
              eq_refl) as [Hm [Hw _]].
  split; [exact Hm | exact Hw].
Defined.

(** ** The second revision's other views of the record *)

Section Views.
Context {Credential JSValue : Type}.
Implicit Types (p : CreateProps.t Credential JSValue) (w : World).

(** X4: on an instance [create] produced, [toDomain], which goes
    through the getters and defaults [metadata] and [version] once more,
    returns the same record as [toJSON], which reads the held record
    directly; that record satisfies the invariants. *)
Theorem X4_toDomain_is_toJSON_after_create p w i w' :
  runState (Rev2.create p) w = (Result.success i, w') ->
  evalState Rev2.toDomain i = evalState Rev2.toJSON i /\
  record_invariant (evalState Rev2.toDomain i).
Proof.
  intros H. run_success H.
  pose proof (or_string_truthy (CreateProps.version p) default_version
                default_version_truthy) as Ht.
  unfold record_invariant. cbn -[or_string].
  rewrite !or_string_idem by reflexivity.
  split; [reflexivity|].
  split; [now apply alias_failure_None|].
  split; [eexists; reflexivity|].
  eexists. split; [reflexivity|].
  intros Hnil.
  change (or_string (CreateProps.version p) default_version = []) in Hnil.
  rewrite Hnil in Ht. discriminate.
Qed.

(** X5: on an instance [create] produced, the three places a version
    can be read from agree: the [version] getter, the [version] of the
    unit description built by the constructor, and the [version] of the
    snapshot; and it is never the empty string. *)
Theorem X5_one_version_everywhere p w i w' :
  runState (Rev2.create p) w = (Result.success i, w') ->
  UnitSchema.version (evalState Rev2.dna i) = evalState Rev2.version i /\
  IIdentity.version (evalState Rev2.toJSON i) = Some (evalState Rev2.version i) /\
  evalState Rev2.version i <> [].
Proof.
  intros H. run_success H.
  pose proof (or_string_truthy (CreateProps.version p) default_version
                default_version_truthy) as Ht.
  cbn -[or_string].
  change (lit "1.0.0") with default_version.
  change [49%N; 46%N; 48%N; 46%N; 48%N] with default_version.
  rewrite ?or_string_idem by reflexivity. rewrite ?Ht.
  split; [reflexivity|]. split; [reflexivity|].
  intros Hnil. rewrite Hnil in Ht. discriminate.
Qed.

End Views.

Lemma X4_toDomain_witness :
  exists i w',
    runState (Rev2.create sample_empty_version) world0 = (Result.success i, w') /\
    evalState Rev2.toDomain i = evalState Rev2.toJSON i.
Proof.
  eexists. eexists. split; [reflexivity|].
  exact (proj1 (X4_toDomain_is_toJSON_after_create
                  sample_empty_version world0 _ _ eq_refl)).
Defined.

Lemma X5_one_version_witness :
  exists i w',
    runState (Rev2.create sample_created_2023) world0 = (Result.success i, w') /\
    UnitSchema.version (evalState Rev2.dna i) = evalState Rev2.version i.
Proof.
  eexists. eexists. split; [reflexivity|].
  exact (proj1 (X5_one_version_everywhere
                  sample_created_2023 world0 _ _ eq_refl)).
Defined.

(** ** Snapshots carried from one revision to the other *)

Section AcrossRevisions.
Context {Credential JSValue : Type}.
Implicit Types (p : CreateProps.t Credential JSValue) (w : World).

(** X6: a snapshot taken from an instance of the first revision is
    accepted by the second revision's [create] and comes back unchanged,
    provided its timestamp is a well-formed date (supplied as one, or
    read from a clock in range).  The other way round the snapshot is
    accepted too, but comes back with the public key as its private
    key. *)
Theorem X6_snapshots_across_revisions p w w2 :
  props_wf p ->
  (CreateProps.createdAt p = None -> clock_valid w) ->
  (forall i w1,
     runState (Rev1.create p) w = (Result.success i, w1) ->
     exists i' w3,
       runState (Rev2.create (props_of_snapshot (evalState Rev1.toJSON i))) w2
       = (Result.success i', w3) /\
       evalState Rev2.toJSON i' = evalState Rev1.toJSON i) /\
  (forall i w1,
     runState (Rev2.create p) w = (Result.success i, w1) ->
     exists i' w3,
       runState (Rev1.create (props_of_snapshot (evalState Rev2.toJSON i))) w2
       = (Result.success i', w3) /\
       evalState Rev1.toJSON i'
       = with_privateKeyHex (Some (CreateProps.publicKeyHex p))
           (evalState Rev2.toJSON i)).
Proof.
  intros Hwf Hclk. split; intros i w1 H; run_success H.
  - eexists. eexists. split.
    + apply Rev2_create_succeeds. exact Ea.
    + cbn -[or_string]. rewrite or_string_idem by reflexivity.
      f_equal. unfold props_wf in Hwf.
      destruct (CreateProps.createdAt p) as [d|].
      * now apply new_Date_from_id.
      * apply new_Date_from_id, clock_reading_wf. now apply Hclk.
  - eexists. eexists. split.
    + apply Rev1_create_succeeds. exact Ea.
    + cbn -[or_string]. rewrite or_string_idem by reflexivity. reflexivity.
Qed.

End AcrossRevisions.

Lemma X6_snapshots_witness :
  exists i w1 i' w3,
    runState (Rev1.create sample_created_2023) world0 = (Result.success i, w1) /\
    runState (Rev2.create (props_of_snapshot (evalState Rev1.toJSON i))) w1
    = (Result.success i', w3) /\
    evalState Rev2.toJSON i' = evalState Rev1.toJSON i.
Proof.
  eexists. eexists.
  destruct (proj1 (X6_snapshots_across_revisions sample_created_2023 world0
                     (mkWorld (clock world0) 0 1) eq_refl
                     (fun _ => world0_clock_valid)) _ _ eq_refl)
    as [i' [w3 [Hrun Heq]]].
  exists i', w3. split; [reflexivity|]. split; [exact Hrun | exact Heq].
Defined.

(** ** Calls to [create] one after the other *)

Section Sequences.
Context {Credential JSValue : Type}.
Implicit Types (p : CreateProps.t Credential JSValue) (w : World).

(** X7: a call of [create] that fails leaves no trace: whatever call
    follows it returns what it would have returned without it, in both
    revisions. *)
Theorem X7_failed_create_leaves_no_trace p1 p2 w :
  alias_rejected (CreateProps.alias p1) ->
  runState (Rev1.create p1 ;; Rev1.create p2) w = runState (Rev1.create p2) w /\
  runState (Rev2.create p1 ;; Rev2.create p2) w = runState (Rev2.create p2) w.
Proof.
  intros Hr. apply alias_failure_Some in Hr. destruct Hr as [m Hm].
  cbn [bind Monad_state runState].
  rewrite (Rev1_create_fails p1 w m Hm), (Rev2_create_fails p1 w m Hm).
  split; reflexivity.
Qed.

(** X8: two successful calls in a row that both omit [createdAt] take
    their timestamps from two successive readings of the clock, in call
    order, and leave two more objects constructed; a first call that
    supplies [createdAt] makes no reading, so the second gets the reading
    the first would have got. *)
Theorem X8_successive_creates_read_successive_times p1 p2 w :
  alias_accepted (CreateProps.alias p1) ->
  alias_accepted (CreateProps.alias p2) ->
  CreateProps.createdAt p2 = None ->
  exists i1 i2 w',
    runState (r1 <- Rev2.create p1 ;; r2 <- Rev2.create p2 ;; ret (r1, r2)) w
    = ((Result.success i1, Result.success i2), w') /\
    evalState Rev2.createdAt i2
    = mkDate (Some (clock w (match CreateProps.createdAt p1 with
                             | Some _ => reads w
                             | None => S (reads w)
                             end))) /\
    (CreateProps.createdAt p1 = None ->
     evalState Rev2.createdAt i1 = mkDate (Some (clock w (reads w))) /\
     reads w' = S (S (reads w))) /\
    constructed w' = S (S (constructed w)) /\
    clock w' = clock w.
Proof.
  intros H1 H2 Hc. apply alias_failure_None in H1, H2.
  cbn [bind Monad_state runState].
  rewrite (Rev2_create_succeeds p1 w H1).
  rewrite (Rev2_create_succeeds p2 _ H2).
  rewrite Hc. cbn [clock reads constructed ret].
  eexists. eexists. eexists. split; [reflexivity|].
  split; [reflexivity|]. split; [|split; reflexivity].
  intros ->. split; reflexivity.
Qed.

End Sequences.

Lemma sample_bang_rejected : alias_rejected (CreateProps.alias sample_bang).
Proof. right. left. exact (proj2 sample_bang_disallowed). Qed.

Lemma X7_failed_create_witness :
  runState (Rev2.create sample_bang ;; Rev2.create sample_created_2023) world0
  = runState (Rev2.create sample_created_2023) world0.
Proof.
  exact (proj2 (X7_failed_create_leaves_no_trace
                  sample_bang sample_created_2023 world0 sample_bang_rejected)).
Defined.

Lemma X8_successive_creates_witness :
  exists i1 i2 w',
    runState (r1 <- Rev2.create sample_with_private_key ;;
              r2 <- Rev2.create sample_without_private_key ;;
              ret (r1, r2)) (mkWorld (fun n => Z.of_nat n) 5 0)
    = ((Result.success i1, Result.success i2), w') /\
    evalState Rev2.createdAt i1 = mkDate (Some 5%Z) /\
    evalState Rev2.createdAt i2 = mkDate (Some 6%Z).
Proof.
  destruct (X8_successive_creates_read_successive_times
              sample_with_private_key sample_without_private_key
              (mkWorld (fun n => Z.of_nat n) 5 0)
              sample_alias_accepted sample_alias_accepted eq_refl)
    as [i1 [i2 [w' [Hrun [H2 [H1 _]]]]]].
  exists i1, i2, w'. split; [exact Hrun|].
  split; [exact (proj1 (H1 eq_refl)) | exact H2].
Defined.

(** ** The alias checks look at no position *)

Lemma alias_failure_permutation (a b : jsstring) :
  Permutation a b -> alias_failure a = alias_failure b.
Proof.
  intros Hp.
  assert (Ht : truthy a = truthy b).
  { destruct a as [|x a], b as [|y b]; try reflexivity.
    - apply Permutation_nil in Hp. discriminate.
    - apply Permutation_sym, Permutation_nil in Hp. discriminate. }
  assert (Hr : alias_regex_test a = alias_regex_test b).
  { destruct (alias_regex_test a) eqn:Ea, (alias_regex_test b) eqn:Eb;
      try reflexivity.
    - apply alias_regex_test_spec in Ea. destruct Ea as [Hne Hall].
      assert (alias_regex_test b = true); [|congruence].
      apply alias_regex_test_spec. split.
      + intros ->. apply Permutation_sym, Permutation_nil in Hp. contradiction.
      + exact (Permutation_Forall Hp Hall).
    - apply alias_regex_test_spec in Eb. destruct Eb as [Hne Hall].
      assert (alias_regex_test a = true); [|congruence].
      apply alias_regex_test_spec. split.
      + intros ->. apply Permutation_nil in Hp. contradiction.
      + exact (Permutation_Forall (Permutation_sym Hp) Hall). }
  assert (Hl : js_length a = js_length b).
  { unfold js_length. now rewrite (Permutation_length Hp). }
  unfold alias_failure. now rewrite Ht, Hr, Hl.
Qed.

Section Positions.
Context {Credential JSValue : Type}.
Implicit Types (p : CreateProps.t Credential JSValue) (w : World).

(** X9: the checks constrain which characters an alias has and how
    many, not where they stand: two inputs whose aliases are
    rearrangements of each other both succeed or both fail with the same
    message, in both revisions; so an alias may begin or end with a digit,
    a dash or an underscore. *)
Theorem X9_outcome_ignores_character_order p1 p2 w1 w2 :
  Permutation (CreateProps.alias p1) (CreateProps.alias p2) ->
  (Result.isSuccess (evalState (Rev1.create p1) w1)
   = Result.isSuccess (evalState (Rev1.create p2) w2) /\
   Result.errorMessage (evalState (Rev1.create p1) w1)
   = Result.errorMessage (evalState (Rev1.create p2) w2)) /\
  (Result.isSuccess (evalState (Rev2.create p1) w1)
   = Result.isSuccess (evalState (Rev2.create p2) w2) /\
   Result.errorMessage (evalState (Rev2.create p1) w1)
   = Result.errorMessage (evalState (Rev2.create p2) w2)).
Proof.
  intros Hp. apply alias_failure_permutation in Hp. unfold evalState.
  destruct (alias_failure (CreateProps.alias p1)) as [m|] eqn:E1;
    symmetry in Hp.
  - rewrite (Rev1_create_fails p1 w1 m E1), (Rev1_create_fails p2 w2 m Hp).
    rewrite (Rev2_create_fails p1 w1 m E1), (Rev2_create_fails p2 w2 m Hp).
    repeat split.
  - rewrite (Rev1_create_succeeds p1 w1 E1), (Rev1_create_succeeds p2 w2 Hp).
    rewrite (Rev2_create_succeeds p1 w1 E1), (Rev2_create_succeeds p2 w2 Hp).
    repeat split.
Qed.

End Positions.

Lemma sample_permuted_alias :
  Permutation (CreateProps.alias sample_with_private_key)
    (CreateProps.alias sample_permuted).
Proof.
  change (Permutation (lit "user-001") (rev (lit "user-001"))).
  apply Permutation_rev.
Qed.

Lemma X9_character_order_witness :
  Result.isSuccess (evalState (Rev2.create sample_with_private_key) world0)
  = Result.isSuccess (evalState (Rev2.create sample_permuted) world0).
Proof.
  exact (proj1 (proj2 (X9_outcome_ignores_character_order
                         sample_with_private_key sample_permuted
                         world0 world0 sample_permuted_alias))).
Defined.
